(** * superset.connectors.connector_registry

    A shallow embedding of [ConnectorRegistry], the registry that maps a
    datasource type tag to the class implementing it and dispatches the
    lookups of the rest of the application to that class.

    The registry itself is a class attribute, [sources], a Python [dict]
    (insertion ordered); it is threaded explicitly here.  The SQLAlchemy
    session is a collaborator: it is modelled as the tables it holds, and
    every query that reaches it is written to a trace, so that "the session
    was not consulted" and "the scan stopped here" are statements about the
    trace. *)

From stdpp Require Import gmap strings list.
From Stdlib Require Import ZArith.

Local Open Scope Z_scope.
Local Open Scope string_scope.
Local Open Scope list_scope.

(** ** Exceptions

    The exception classes that this module raises or lets through.  Only the
    class is kept: messages (and their localisation) are not modelled.
    [OtherError] stands for any failure of a collaborator that is none of the
    named classes (a lost connection, a programming error in a hook, ...). *)

Inductive exn : Type :=
  | DatasetNotFoundError
  | KeyError (key : string)
  | NoResultFound
  | MultipleResultsFound
  | ImportError (module_name : string)
  | AttributeError (attr : string)
  | OtherError (what : string).

(** [except NoResultFound] catches exactly that class: in SQLAlchemy
    [MultipleResultsFound] and [NoResultFound] are siblings below
    [InvalidRequestError]. *)
Definition is_NoResultFound (e : exn) : bool :=
  match e with NoResultFound => true | _ => false end.

(** ** Effects: a trace of the entities queried, and an outcome *)

Definition Eff (A : Type) : Type := list string * (exn + A).

Definition ret {A} (a : A) : Eff A := ([], inr a).
Definition raise {A} (e : exn) : Eff A := ([], inl e).

Definition bind {A B} (m : Eff A) (f : A → Eff B) : Eff B :=
  match m with
  | (t, inl e) => (t, inl e)
  | (t, inr a) => let '(t', r) := f a in (t ++ t', r)
  end.

Notation "'let*' x ':=' m 'in' k" := (bind m (λ x, k))
  (at level 10, x name, m at level 100, k at level 200,
   format "'let*'  x  ':='  m  'in'  '/' k").

Definition trace {A} (m : Eff A) : list string := fst m.
Definition outcome {A} (m : Eff A) : exn + A := snd m.

(** [try: body except NoResultFound: pass], followed by [rest]; a [return]
    inside [body] leaves the enclosing function, so [rest] does not run. *)
Definition try_return_except_NoResultFound {A}
    (body : Eff A) (rest : Eff A) : Eff A :=
  match body with
  | (t, inr a) => (t, inr a)
  | (t, inl e) =>
      if is_NoResultFound e then let '(t', r) := rest in (t ++ t', r)
      else (t, inl e)
  end.

(** ** Datasource rows

    The attributes of a [BaseDatasource] instance that the registry reads.
    [perm] and [schema_perm] are nullable columns.  An instance is truthy
    (the class defines neither [__bool__] nor [__len__]). *)

Module BaseDatasource.
Record t : Type := mk {
  id : Z;
  name : string;
  database_id : Z;
  perm : option string;
  schema_perm : option string
}.
End BaseDatasource.

Abbreviation Row := BaseDatasource.t.

Module Database.
Record t : Type := mk {
  id : Z;
  type : string
}.
End Database.

(** ** The session and its queries

    A session answers a query on an entity (a mapped class, named by its
    class name) with the rows of that entity, or fails. *)

Definition Session : Type := string → exn + list Row.

(** SQL three-valued logic for the WHERE clauses: [None] is NULL. *)
Definition sql_in (v : option string) (s : gset string) : option bool :=
  match v with
  | None => None
  | Some x => Some (bool_decide (x ∈ s))
  end.

Definition or_ (a b : option bool) : option bool :=
  match a, b with
  | Some true, _ | _, Some true => Some true
  | Some false, Some false => Some false
  | _, _ => None
  end.

Definition is_true (v : option bool) : bool :=
  match v with Some true => true | _ => false end.

Module Query.
Record t : Type := mk {
  session : Session;
  entity : string;
  criteria : list (Row → option bool);
  options : list string
}.

Definition filter (criterion : Row → option bool) (q : t) : t :=
  mk (session q) (entity q) (criteria q ++ [criterion]) (options q).

Definition with_options (opts : list string) (q : t) : t :=
  mk (session q) (entity q) (criteria q) (options q ++ opts).

(** A row is selected when every criterion evaluates to TRUE. *)
Definition selects (q : t) (r : Row) : bool :=
  forallb (λ c, is_true (c r)) (criteria q).

(** Running the query: one round trip to the session, recorded. *)
Definition execute (q : t) : Eff (list Row) :=
  ([entity q],
   match session q (entity q) with
   | inl e => inl e
   | inr rows => inr (List.filter (selects q) rows)
   end).

(** [all] lists the rows selected, in the order of the table; the tables
    listed are those of mapped classes, which hold an id once. *)
Definition all (q : t) : Eff (list Row) := execute q.

(** Modelled from the spec: the mapping of the datasource classes, which is
    declared with [BaseDatasource] and its subclasses and not in this
    module.  The [id] column is the primary key ("a unique identifier
    field", "lookup by primary id"), so the identity of a row is its [id].
    The session counts identities, not rows: a row whose identity was
    already met is the object loaded first, and is dropped from the result.
    [seen] holds the identities met so far. *)
Fixpoint identities (seen : list Z) (rows : list Row) : list Row :=
  match rows with
  | [] => []
  | r :: rows' =>
      if decide (BaseDatasource.id r ∈ seen) then identities seen rows'
      else r :: identities (BaseDatasource.id r :: seen) rows'
  end.

(** [subqueryload]: each relation named in the options of the query is
    fetched with one more query on the entity of the relation.  What that
    entity holds is attached to the loaded object and is not read here;
    its failure is a failure of the load. *)
Fixpoint load_relations (session : Session) (relations : list string)
    : Eff unit :=
  match relations with
  | [] => ret tt
  | relation :: relations' =>
      let* u :=
        ([relation],
         match session relation with
         | inl e => inl e
         | inr _ => inr tt
         end) in
      load_relations session relations'
  end.

(** Loading the objects of a query that asks for a single result: the
    rows are fetched, the relations are fetched once the query has loaded
    an object, and every identity is kept once. *)
Definition load (q : t) : Eff (list Row) :=
  let* rows := execute q in
  let* u :=
    match rows with
    | [] => ret tt
    | _ :: _ => load_relations (session q) (options q)
    end in
  ret (identities [] rows).

Definition one_or_none (q : t) : Eff (option Row) :=
  let* rows := load q in
  match rows with
  | [] => ret None
  | [r] => ret (Some r)
  | _ => raise MultipleResultsFound
  end.

Definition one (q : t) : Eff Row :=
  let* rows := load q in
  match rows with
  | [] => raise NoResultFound
  | [r] => ret r
  | _ => raise MultipleResultsFound
  end.
End Query.

(** ** Datasource classes

    What the registry uses of a class derived from [BaseDatasource]: its
    name (the entity the session maps it to), its [type] tag, the entities
    of its [columns] and [metrics] relations and its three class methods. *)

Record SourceClass : Type := {
  class_name : string;
  type : string;
  columns : string;
  metrics : string;
  default_query : Query.t → Query.t;
  get_datasource_by_name :
    Session → string → string → string → Eff (option Row);
  query_datasources_by_name :
    Session → Database.t → string → option string → Eff (list Row)
}.

Definition session_query (session : Session) (c : SourceClass) : Query.t :=
  Query.mk session (class_name c) [] [].

Definition filter_by_id (v : Z) : Query.t → Query.t :=
  Query.filter (λ r, Some (BaseDatasource.id r =? v)%Z).

Definition filter_by_database_id (v : Z) : Query.t → Query.t :=
  Query.filter (λ r, Some (BaseDatasource.database_id r =? v)%Z).

(** ** Python dictionaries, insertion ordered *)

Module PyDict.
Section Dict.
Context {V : Type}.

Definition t : Type := list (string * V).

Definition empty : t := [].

Fixpoint getitem_opt (k : string) (d : t) : option V :=
  match d with
  | [] => None
  | (k', v) :: d' => if decide (k' = k) then Some v else getitem_opt k d'
  end.

(** [k in d] *)
Definition contains (k : string) (d : t) : bool :=
  match getitem_opt k d with Some _ => true | None => false end.

(** [d[k]] *)
Definition getitem (d : t) (k : string) : Eff V :=
  match getitem_opt k d with
  | Some v => ret v
  | None => raise (KeyError k)
  end.

(** [d[k] = v]: a key already present keeps its position. *)
Fixpoint setitem (k : string) (v : V) (d : t) : t :=
  match d with
  | [] => [(k, v)]
  | (k', v') :: d' =>
      if decide (k' = k) then (k, v) :: d' else (k', v') :: setitem k v d'
  end.

Definition keys (d : t) : list string := d.*1.
Definition values (d : t) : list V := d.*2.
End Dict.
Arguments t : clear implicits.
End PyDict.

Abbreviation Sources := (PyDict.t SourceClass).

(** ** The import system

    [register_sources] resolves classes by name through [__import__] and
    [getattr].  The interpreter's modules are a parameter: a module is the
    partial map from attribute names to the classes it defines. *)

Definition PyModule : Type := string → option SourceClass.
Definition Modules : Type := string → option PyModule.

Definition import (modules : Modules) (module_name : string)
    : exn + PyModule :=
  match modules module_name with
  | Some m => inr m
  | None => inl (ImportError module_name)
  end.

Definition getattr (module_obj : PyModule) (attr : string)
    : exn + SourceClass :=
  match module_obj attr with
  | Some c => inr c
  | None => inl (AttributeError attr)
  end.

(** ** ConnectorRegistry *)

Module ConnectorRegistry.

(** [sources = {}] in the class body. *)
Definition initial_sources : Sources := PyDict.empty.

(** The inner loop of [register_sources]: [sources] is updated in place, so
  the entries written before an exception stay. *)
Fixpoint register_classes (module_obj : PyModule) (class_names : list string)
  (sources : Sources) : Sources * option exn :=
match class_names with
| [] => (sources, None)
| class_name :: class_names' =>
    match getattr module_obj class_name with
    | inl e => (sources, Some e)
    | inr source_class =>
        register_classes module_obj class_names'
          (PyDict.setitem (type source_class) source_class sources)
    end
end.

Fixpoint register_sources (modules : Modules)
  (datasource_config : list (string * list string))
  (sources : Sources) : Sources * option exn :=
match datasource_config with
| [] => (sources, None)
| (module_name, class_names) :: datasource_config' =>
    match import modules module_name with
    | inl e => (sources, Some e)
    | inr module_obj =>
        match register_classes module_obj class_names sources with
        | (sources', Some e) => (sources', Some e)
        | (sources', None) =>
            register_sources modules datasource_config' sources'
        end
    end
end.

Definition get_datasource (sources : Sources)
  (datasource_type : string) (datasource_id : Z) (session : Session)
  : Eff Row :=
if negb (PyDict.contains datasource_type sources) then
  raise DatasetNotFoundError
else
  let* source_class := PyDict.getitem sources datasource_type in
  let* datasource :=
    Query.one_or_none
      (filter_by_id datasource_id (session_query session source_class)) in
  match datasource with
  | None => raise DatasetNotFoundError
  | Some d => ret d
  end.

(** The loop of [get_all_datasources], with the list built so far. *)
Fixpoint extend_all (classes : list SourceClass) (session : Session)
  (datasources : list Row) : Eff (list Row) :=
match classes with
| [] => ret datasources
| source_class :: classes' =>
    let qry := session_query session source_class in
    let qry := default_query source_class qry in
    let* rows := Query.all qry in
    extend_all classes' session (datasources ++ rows)
end.

Definition get_all_datasources (sources : Sources) (session : Session)
  : Eff (list Row) :=
extend_all (PyDict.values sources) session [].

(** The loop of [get_datasource_by_id] and the [raise] that follows it. *)
Fixpoint scan_by_id (classes : list SourceClass) (session : Session)
  (datasource_id : Z) : Eff Row :=
match classes with
| [] => raise NoResultFound
| datasource_class :: classes' =>
    try_return_except_NoResultFound
      (Query.one
         (filter_by_id datasource_id
            (session_query session datasource_class)))
      (scan_by_id classes' session datasource_id)
end.

Definition get_datasource_by_id (sources : Sources) (session : Session)
  (datasource_id : Z) : Eff Row :=
scan_by_id (PyDict.values sources) session datasource_id.

Definition get_datasource_by_name (sources : Sources) (session : Session)
  (datasource_type datasource_name schema database_name : string)
  : Eff (option Row) :=
let* datasource_class := PyDict.getitem sources datasource_type in
get_datasource_by_name datasource_class
  session datasource_name schema database_name.

Definition query_datasources_by_permissions (sources : Sources)
  (session : Session) (database : Database.t)
  (permissions schema_perms : gset string) : Eff (list Row) :=
let* datasource_class := PyDict.getitem sources (Database.type database) in
Query.all
  (Query.filter
     (λ r, or_ (sql_in (BaseDatasource.perm r) permissions)
               (sql_in (BaseDatasource.schema_perm r) schema_perms))
     (filter_by_database_id (Database.id database)
        (session_query session datasource_class))).

Definition get_eager_datasource (sources : Sources) (session : Session)
  (datasource_type : string) (datasource_id : Z) : Eff Row :=
let* datasource_class := PyDict.getitem sources datasource_type in
Query.one
  (filter_by_id datasource_id
     (Query.with_options
        [columns datasource_class; metrics datasource_class]
        (session_query session datasource_class))).

Definition query_datasources_by_name (sources : Sources) (session : Session)
  (database : Database.t) (datasource_name : string)
  (schema : option string) : Eff (list Row) :=
let* datasource_class := PyDict.getitem sources (Database.type database) in
query_datasources_by_name datasource_class
  session database datasource_name schema.

End ConnectorRegistry.

(** ** A concrete registry: two classes, one table each *)

Module Fixture.
Definition row (i : Z) (n : string) (db : Z) (p sp : option string) : Row :=
  BaseDatasource.mk i n db p sp.

Definition by_name (cls : string)
    (session : Session) (n schema database_name : string)
    : Eff (option Row) :=
  let* rows :=
    Query.execute
      (Query.mk session cls
         [λ r, Some (bool_decide (BaseDatasource.name r = n))] []) in
  ret (head rows).

Definition in_database (cls : string)
    (session : Session) (database : Database.t) (n : string)
    (schema : option string) : Eff (list Row) :=
  Query.execute
    (Query.mk session cls
       [λ r, Some (bool_decide (BaseDatasource.name r = n));
        λ r, Some (BaseDatasource.database_id r =? Database.id database)%Z]
       []).

(** [X] lists only the rows of database 7 by default, [Y] all its rows. *)
Definition X : SourceClass :=
  {| class_name := "X"; type := "x";
     columns := "XColumn"; metrics := "XMetric";
     default_query := filter_by_database_id 7;
     get_datasource_by_name := by_name "X";
     query_datasources_by_name := in_database "X" |}.

Definition Y : SourceClass :=
  {| class_name := "Y"; type := "y";
     columns := "YColumn"; metrics := "YMetric";
     default_query := λ q, q;
     get_datasource_by_name := by_name "Y";
     query_datasources_by_name := in_database "Y" |}.

(** A second class with the tag of [X]. *)
Definition X2 : SourceClass :=
  {| class_name := "X2"; type := "x";
     columns := "X2Column"; metrics := "X2Metric";
     default_query := λ q, q;
     get_datasource_by_name := by_name "X2";
     query_datasources_by_name := in_database "X2" |}.

Definition W : SourceClass :=
  {| class_name := "W"; type := "w";
     columns := "WColumn"; metrics := "WMetric";
     default_query := λ q, q;
     get_datasource_by_name := by_name "W";
     query_datasources_by_name := in_database "W" |}.

Definition x1 : Row := row 1 "a" 7 (Some "p1") (Some "s1").
Definition x2 : Row := row 2 "b" 7 None (Some "s2").
Definition x3 : Row := row 3 "c" 8 (Some "p1") None.
Definition y1 : Row := row 1 "d" 7 (Some "p9") None.
Definition y4 : Row := row 4 "f" 7 None None.
(** A row of [X] that repeats the id of [x1]. *)
Definition x1' : Row := row 1 "e" 8 None None.
Definition w9 : Row := row 9 "g" 7 None None.

Definition modules : Modules :=
  λ m, if decide (m = "connectors") then
         Some (λ a, if decide (a = "X") then Some X
                    else if decide (a = "Y") then Some Y
                    else if decide (a = "X2") then Some X2
                    else if decide (a = "W") then Some W
                    else None)
       else None.

(** [X] registered before [Y]. *)
Definition sources : Sources :=
  (ConnectorRegistry.register_sources
     modules [("connectors", ["X"; "Y"])]
     ConnectorRegistry.initial_sources).1.

Definition session : Session :=
  λ e, if decide (e = "X") then inr [x1; x2; x3]
       else if decide (e = "Y") then inr [y1; y4]
       else inl (OtherError "no such table").

(** The same tables with the id 1 twice in [X]. *)
Definition ambiguous : Session :=
  λ e, if decide (e = "X") then inr [x1; x2; x1']
       else if decide (e = "Y") then inr [y1; y4]
       else inl (OtherError "no such table").

(** Three classes, and a session that times out on the second. *)
Definition three : Sources :=
  (ConnectorRegistry.register_sources
     modules [("connectors", ["X"; "Y"; "W"])]
     ConnectorRegistry.initial_sources).1.

Definition flaky : Session :=
  λ e, if decide (e = "X") then inr [x1; x2; x3]
       else if decide (e = "W") then inr [w9]
       else inl (OtherError "timeout").

(** A session that has lost its connection. *)
Definition broken : Session := λ _, inl (OtherError "connection lost").

(** The tables of [session] and those of the relations of [X] and [Y]. *)
Definition related : Session :=
  λ e, if decide (e ∈ ["XColumn"; "XMetric"; "YColumn"; "YMetric"])
       then inr []
       else session e.

(** The same without the table of the metrics of [X]. *)
Definition no_metrics : Session :=
  λ e, if decide (e = "XMetric") then inl (OtherError "no such table")
       else related e.
End Fixture.

(** ** Notions used in the statements *)

(** The rows of a table that carry a given id. *)
Definition with_id (i : Z) (rows : list Row) : list Row :=
  filter (λ r, BaseDatasource.id r = i) rows.

(** What the session holds for class [c] under id [i]: the matching rows
    of the class's table, or the failure of the session. *)
Definition found (session : Session) (i : Z) (c : SourceClass)
    : exn + list Row :=
  match session (class_name c) with
  | inl e => inl e
  | inr rows => inr (with_id i rows)
  end.

(** The matches that the lookup of id [i] on class [c] yields: the rows
    found, each identity once. *)
Definition matches (session : Session) (i : Z) (c : SourceClass)
    : exn + list Row :=
  match found session i c with
  | inl e => inl e
  | inr rows => inr (Query.identities [] rows)
  end.

(** Membership of a nullable permission string in a set of strings. *)
Definition member (v : option string) (s : gset string) : Prop :=
  match v with
  | Some x => x ∈ s
  | None => False
  end.

#[global] Instance member_dec v s : Decision (member v s).
Proof. destruct v; simpl; apply _. Defined.

(** The rows that [query_datasources_by_permissions] is to return. *)
Definition permitted (database : Database.t)
    (permissions schema_perms : gset string) (r : Row) : Prop :=
  BaseDatasource.database_id r = Database.id database ∧
  (member (BaseDatasource.perm r) permissions ∨
   member (BaseDatasource.schema_perm r) schema_perms).

#[global] Instance permitted_dec database permissions schema_perms r :
  Decision (permitted database permissions schema_perms r).
Proof. unfold permitted. apply _. Defined.

(** The rows of class [c] under its own default scoping. *)
Definition default_scoped (session : Session) (c : SourceClass)
    : exn + list Row :=
  outcome (Query.all (default_query c (session_query session c))).

(** The classes that a module's attribute names resolve to, in order, up to
    the first name that does not resolve. *)
Fixpoint resolved_classes (module_obj : PyModule) (class_names : list string)
    : list SourceClass * option exn :=
  match class_names with
  | [] => ([], None)
  | class_name :: class_names' =>
      match getattr module_obj class_name with
      | inl e => ([], Some e)
      | inr c =>
          let '(cs, e) := resolved_classes module_obj class_names' in
          (c :: cs, e)
      end
  end.

(** The same for a whole configuration. *)
Fixpoint resolved (modules : Modules)
    (datasource_config : list (string * list string))
    : list SourceClass * option exn :=
  match datasource_config with
  | [] => ([], None)
  | (module_name, class_names) :: datasource_config' =>
      match import modules module_name with
      | inl e => ([], Some e)
      | inr module_obj =>
          match resolved_classes module_obj class_names with
          | (cs, Some e) => (cs, Some e)
          | (cs, None) =>
              let '(cs', e) := resolved modules datasource_config' in
              (cs ++ cs', e)
          end
      end
  end.

(** One registration after the other. *)
Definition register_all (cs : list SourceClass) (sources : Sources)
    : Sources :=
  foldl (λ d c, PyDict.setitem (type c) c d) sources cs.

(** The last class of a list that carries a given tag. *)
Definition latest (t : string) (cs : list SourceClass)
    : option SourceClass :=
  last (filter (λ c, type c = t) cs).

(** What holds of every entry of a registry built by registrations: its
    key is the tag of its class, and no key occurs twice. *)
Definition well_keyed (sources : Sources) : Prop :=
  NoDup (PyDict.keys sources) ∧ Forall (λ kc, type kc.2 = kc.1) sources.

(** The registries that calls of [register_sources] lead to, whether they
    return or raise. *)
Inductive reachable : Sources → Prop :=
  | reachable_initial : reachable ConnectorRegistry.initial_sources
  | reachable_register modules datasource_config sources :
      reachable sources →
      reachable
        (ConnectorRegistry.register_sources
           modules datasource_config sources).1.

(** * Properties *)

(** ** Effects *)

Lemma bind_ret {A B} (a : A) (f : A → Eff B) : bind (ret a) f = f a.
Proof. unfold bind, ret. by destruct (f a). Qed.

Lemma bind_raise {A B} (e : exn) (f : A → Eff B) :
  bind (raise e) f = raise e.
Proof. reflexivity. Qed.

(** ** Dictionaries *)

Section PyDictFacts.
Context {V : Type}.
Implicit Types (d : PyDict.t V) (k : string) (v : V).

Lemma getitem_opt_None d k :
  PyDict.getitem_opt k d = None ↔ k ∉ PyDict.keys d.
Proof.
  unfold PyDict.keys. induction d as [|[k' v'] d IH]; simpl.
  - split; [intros _; apply not_elem_of_nil | done].
  - rewrite not_elem_of_cons. case_decide; subst.
    + split; [done | intros [? _]; done].
    + rewrite IH. split; [intros ?; split; [congruence | done] | by intros [_ ?]].
Qed.

Lemma contains_keys d k :
  PyDict.contains k d = true ↔ k ∈ PyDict.keys d.
Proof.
  unfold PyDict.contains.
  destruct (PyDict.getitem_opt k d) eqn:E.
  - split; [intros _ | done].
    destruct (decide (k ∈ PyDict.keys d)) as [|Hn]; [done |].
    apply getitem_opt_None in Hn. congruence.
  - apply getitem_opt_None in E. split; [done | intros; contradiction].
Qed.

Lemma getitem_opt_elem_of d k v :
  PyDict.getitem_opt k d = Some v → (k, v) ∈ d.
Proof.
  induction d as [|[k' v'] d IH]; simpl; [done |].
  case_decide; subst.
  - intros [= ->]. apply list_elem_of_here.
  - intros. apply list_elem_of_further. auto.
Qed.

Lemma elem_of_getitem_opt d k v :
  NoDup (PyDict.keys d) → (k, v) ∈ d → PyDict.getitem_opt k d = Some v.
Proof.
  unfold PyDict.keys. induction d as [|[k' v'] d IH]; simpl.
  - intros _ H. by apply elem_of_nil in H.
  - rewrite NoDup_cons. intros [Hk Hd] [[= -> ->] | Hin]%elem_of_cons.
    + by rewrite decide_True.
    + rewrite decide_False; [auto |].
      intros ->. apply Hk. apply list_elem_of_fmap. by exists (k, v).
Qed.

Lemma getitem_opt_setitem_eq d k v :
  PyDict.getitem_opt k (PyDict.setitem k v d) = Some v.
Proof.
  induction d as [|[k' v'] d IH]; simpl.
  - by rewrite decide_True.
  - case_decide; simpl; [by rewrite decide_True | by rewrite decide_False].
Qed.

Lemma getitem_opt_setitem_ne d k k' v :
  k ≠ k' →
  PyDict.getitem_opt k' (PyDict.setitem k v d) = PyDict.getitem_opt k' d.
Proof.
  intros Hne. induction d as [|[k0 v0] d IH]; simpl.
  - by rewrite decide_False.
  - destruct (decide (k0 = k)) as [->|]; simpl.
    + by rewrite !decide_False.
    + by rewrite IH.
Qed.

Lemma keys_setitem d k v :
  PyDict.keys (PyDict.setitem k v d) =
  if decide (k ∈ PyDict.keys d) then PyDict.keys d else PyDict.keys d ++ [k].
Proof.
  unfold PyDict.keys. induction d as [|[k0 v0] d IH].
  - case_decide as H; [by apply elem_of_nil in H | done].
  - cbn [PyDict.setitem]. destruct (decide (k0 = k)) as [->|Hne].
    + rewrite decide_True; [done | apply list_elem_of_here].
    + rewrite fmap_cons, IH. cbn [fmap list_fmap fst].
      destruct (decide (k ∈ d.*1)) as [Hin|Hin].
      * rewrite decide_True; [done | by apply list_elem_of_further].
      * rewrite decide_False; [done |].
        rewrite not_elem_of_cons. split; [congruence | done].
Qed.

Lemma NoDup_keys_setitem d k v :
  NoDup (PyDict.keys d) → NoDup (PyDict.keys (PyDict.setitem k v d)).
Proof.
  intros Hd. rewrite keys_setitem. case_decide; [done |].
  apply NoDup_app. split_and!; [done | | apply NoDup_singleton].
  intros x Hx ->%list_elem_of_singleton. done.
Qed.
End PyDictFacts.

(** ** Queries *)

Lemma List_filter_decide {A} (f : A → bool) (P : A → Prop)
    `{!∀ x, Decision (P x)} (l : list A) :
  (∀ x, f x = true ↔ P x) → List.filter f l = filter P l.
Proof.
  intros Hf. induction l as [|x l IH]; [done |].
  simpl. rewrite filter_cons, IH.
  destruct (f x) eqn:E; case_decide as HP; try done.
  - apply Hf in E. contradiction.
  - apply Hf in HP. congruence.
Qed.

(** A lookup by id selects the rows of the class that carry the id, and
    asks the session once. *)
Lemma execute_filter_by_id session c i opts :
  Query.execute
    (filter_by_id i (Query.with_options opts (session_query session c))) =
  ([class_name c], found session i c).
Proof.
  unfold Query.execute, found. simpl. f_equal.
  destruct (session (class_name c)) as [e|rows]; [done |].
  f_equal. apply List_filter_decide. intros r.
  unfold Query.selects. simpl. rewrite andb_true_r, <- Z.eqb_eq.
  by destruct (BaseDatasource.id r =? i)%Z.
Qed.

Lemma execute_filter_by_id' session c i :
  Query.execute (filter_by_id i (session_query session c)) =
  ([class_name c], found session i c).
Proof. exact (execute_filter_by_id session c i []). Qed.

Lemma with_id_Forall i rows :
  Forall (λ r, BaseDatasource.id r = i) (with_id i rows).
Proof.
  apply Forall_forall. intros r Hr.
  by apply list_elem_of_filter in Hr as [? _].
Qed.

Lemma identities_seen i seen rows :
  Forall (λ r, BaseDatasource.id r = i) rows → i ∈ seen →
  Query.identities seen rows = [].
Proof.
  intros Hrows Hi. induction Hrows as [|r rows Hr _ IH]; [done |].
  cbn [Query.identities]. rewrite Hr. by rewrite decide_True.
Qed.

(** Rows of one id are one identity: the first of them. *)
Lemma identities_one_id i rows :
  Forall (λ r, BaseDatasource.id r = i) rows →
  Query.identities [] rows = match rows with [] => [] | r :: _ => [r] end.
Proof.
  intros Hrows. destruct Hrows as [|r rows Hr Hrows]; [done |].
  cbn [Query.identities].
  destruct (decide (BaseDatasource.id r ∈ [])) as [H|_];
    [by apply elem_of_nil in H |].
  f_equal. apply (identities_seen i); [done |].
  rewrite Hr. apply list_elem_of_here.
Qed.

Lemma matches_found session i c :
  matches session i c =
  match found session i c with
  | inl e => inl e
  | inr [] => inr []
  | inr (r :: _) => inr [r]
  end.
Proof.
  unfold matches, found.
  destruct (session (class_name c)) as [e|rows]; [done |].
  rewrite (identities_one_id i) by apply with_id_Forall.
  by destruct (with_id i rows).
Qed.

(** A lookup by id without loader options yields the matches of the class
    after one query. *)
Lemma load_filter_by_id session c i :
  Query.load (filter_by_id i (session_query session c)) =
  ([class_name c], matches session i c).
Proof.
  unfold Query.load. rewrite execute_filter_by_id'. unfold matches.
  destruct (found session i c) as [e|[|r l]]; reflexivity.
Qed.

Lemma one_or_none_filter_by_id session c i :
  Query.one_or_none (filter_by_id i (session_query session c)) =
  ([class_name c],
   match found session i c with
   | inl e => inl e
   | inr [] => inr None
   | inr (r :: _) => inr (Some r)
   end).
Proof.
  unfold Query.one_or_none. rewrite load_filter_by_id, matches_found.
  destruct (found session i c) as [e|[|r l]]; reflexivity.
Qed.

Lemma one_filter_by_id session c i :
  Query.one (filter_by_id i (session_query session c)) =
  ([class_name c],
   match found session i c with
   | inl e => inl e
   | inr [] => inl NoResultFound
   | inr (r :: _) => inr r
   end).
Proof.
  unfold Query.one. rewrite load_filter_by_id, matches_found.
  destruct (found session i c) as [e|[|r l]]; reflexivity.
Qed.

Lemma get_datasource_registered sources t c i session :
  PyDict.getitem_opt t sources = Some c →
  ConnectorRegistry.get_datasource sources t i session =
  ([class_name c],
   match found session i c with
   | inl e => inl e
   | inr [] => inl DatasetNotFoundError
   | inr (r :: _) => inr r
   end).
Proof.
  intros Hc. unfold ConnectorRegistry.get_datasource, PyDict.contains,
    PyDict.getitem.
  rewrite Hc. cbn [negb]. rewrite bind_ret, one_or_none_filter_by_id.
  destruct (found session i c) as [e|[|r l]]; reflexivity.
Qed.

Lemma get_datasource_not_registered sources t i session :
  t ∉ PyDict.keys sources →
  ConnectorRegistry.get_datasource sources t i session
    = ([], inl DatasetNotFoundError).
Proof.
  intros Ht. unfold ConnectorRegistry.get_datasource.
  destruct (PyDict.contains t sources) eqn:E; [| done].
  apply contains_keys in E. contradiction.
Qed.

(** C1.  With a type tag that is not registered, [get_datasource] raises
    the exception it has for an unknown datasource type,
    [DatasetNotFoundError], whatever the id and the session, and no query
    reaches the session. *)
Theorem get_datasource_unregistered sources t :
  t ∉ PyDict.keys sources →
  ∀ i session,
    outcome (ConnectorRegistry.get_datasource sources t i session)
      = inl DatasetNotFoundError ∧
    trace (ConnectorRegistry.get_datasource sources t i session) = [].
Proof.
  intros Ht i session.
  by rewrite (get_datasource_not_registered _ _ i session Ht).
Qed.

Lemma get_datasource_unregistered_witness :
  ("z" ∉ PyDict.keys Fixture.sources) ∧
  outcome (ConnectorRegistry.get_datasource
             Fixture.sources "z" 1 Fixture.broken)
    = inl DatasetNotFoundError ∧
  trace (ConnectorRegistry.get_datasource
           Fixture.sources "z" 1 Fixture.broken) = [].
Proof.
  assert (H : "z" ∉ PyDict.keys Fixture.sources).
  { apply getitem_opt_None. reflexivity. }
  split; [exact H |].
  exact (get_datasource_unregistered Fixture.sources "z" H 1 Fixture.broken).
Defined.




(** ** Registration *)

Lemma register_classes_resolved module_obj class_names sources :
  ConnectorRegistry.register_classes module_obj class_names sources =
  (register_all (resolved_classes module_obj class_names).1 sources,
   (resolved_classes module_obj class_names).2).
Proof.
  revert sources. induction class_names as [|n ns IH]; intros sources.
  - reflexivity.
  - simpl. destruct (getattr module_obj n) as [e|c]; [reflexivity |].
    rewrite IH. by destruct (resolved_classes module_obj ns).
Qed.

Lemma register_all_app cs cs' sources :
  register_all (cs ++ cs') sources = register_all cs' (register_all cs sources).
Proof. apply foldl_app. Qed.

(** [register_sources] writes the classes its configuration resolves to,
    one after the other, and raises what the resolution raises. *)
Lemma register_sources_resolved modules datasource_config sources :
  ConnectorRegistry.register_sources modules datasource_config sources =
  (register_all (resolved modules datasource_config).1 sources,
   (resolved modules datasource_config).2).
Proof.
  revert sources.
  induction datasource_config as [|[m ns] cfg IH]; intros sources.
  - reflexivity.
  - simpl. destruct (import modules m) as [e|module_obj]; [reflexivity |].
    rewrite register_classes_resolved.
    destruct (resolved_classes module_obj ns) as [cs [e|]]; [reflexivity |].
    simpl. rewrite IH.
    destruct (resolved modules cfg) as [cs' e']. simpl.
    by rewrite register_all_app.
Qed.

Lemma latest_snoc t cs c :
  latest t (cs ++ [c]) = if decide (type c = t) then Some c else latest t cs.
Proof.
  unfold latest. rewrite filter_app, filter_cons, filter_nil.
  case_decide.
  - apply last_snoc.
  - by rewrite app_nil_r.
Qed.

Lemma getitem_opt_register_all cs sources t :
  PyDict.getitem_opt t (register_all cs sources) =
  match latest t cs with
  | Some c => Some c
  | None => PyDict.getitem_opt t sources
  end.
Proof.
  induction cs as [|c cs IH] using rev_ind; [reflexivity |].
  rewrite register_all_app, latest_snoc. simpl.
  case_decide as Hc.
  - subst t. apply getitem_opt_setitem_eq.
  - by rewrite getitem_opt_setitem_ne.
Qed.

Lemma well_keyed_setitem c sources :
  well_keyed sources → well_keyed (PyDict.setitem (type c) c sources).
Proof.
  intros [Hnd Hk]. split; [by apply NoDup_keys_setitem |].
  clear Hnd. induction sources as [|[k v] d IH]; simpl.
  - by repeat constructor.
  - apply Forall_cons in Hk as [Hkv Hd].
    case_decide; constructor; auto.
Qed.

Lemma well_keyed_register_all cs sources :
  well_keyed sources → well_keyed (register_all cs sources).
Proof.
  revert sources. induction cs as [|c cs IH]; intros sources H; [done |].
  simpl. apply IH. by apply well_keyed_setitem.
Qed.

Lemma reachable_well_keyed sources : reachable sources → well_keyed sources.
Proof.
  induction 1 as [|modules cfg sources _ IH].
  - split; [apply NoDup_nil_2 | constructor].
  - rewrite register_sources_resolved. simpl.
    by apply well_keyed_register_all.
Qed.

(** C3.  In a registry built by registrations a type tag has at most one
    class, its own.  A further [register_sources] raises only what the
    resolution of its names raises, so a tag that is already in use is
    replaced silently; afterwards a lookup by a tag gives the class
    registered last under it, and what was there before for the tags the
    configuration does not mention. *)
Theorem last_registration_wins sources :
  reachable sources →
  NoDup (PyDict.keys sources) ∧
  (∀ t c c', (t, c) ∈ sources → (t, c') ∈ sources → c = c') ∧
  (∀ t c, (t, c) ∈ sources →
     type c = t ∧ PyDict.getitem_opt t sources = Some c) ∧
  ∀ modules datasource_config,
    let after :=
      ConnectorRegistry.register_sources modules datasource_config sources in
    reachable after.1 ∧
    after.2 = (resolved modules datasource_config).2 ∧
    ∀ t, PyDict.getitem_opt t after.1 =
         match latest t (resolved modules datasource_config).1 with
         | Some c => Some c
         | None => PyDict.getitem_opt t sources
         end.
Proof.
  intros Hr. destruct (reachable_well_keyed _ Hr) as [Hnd Hk].
  split_and!.
  - exact Hnd.
  - intros t c c' H1 H2.
    apply (elem_of_getitem_opt _ _ _ Hnd) in H1, H2. congruence.
  - intros t c Hin. split.
    + rewrite Forall_forall in Hk. exact (Hk _ Hin).
    + by apply elem_of_getitem_opt.
  - intros modules cfg after. split_and!.
    + by constructor.
    + unfold after. by rewrite register_sources_resolved.
    + intros t. unfold after. rewrite register_sources_resolved. simpl.
      apply getitem_opt_register_all.
Qed.

Lemma last_registration_wins_witness :
  reachable Fixture.sources ∧
  let after :=
    ConnectorRegistry.register_sources
      Fixture.modules [("connectors", ["X2"])] Fixture.sources in
  after.2 = None ∧
  PyDict.getitem_opt "x" after.1 = Some Fixture.X2 ∧
  PyDict.getitem_opt "y" after.1 = Some Fixture.Y.
Proof.
  assert (Hr : reachable Fixture.sources).
  { exact (reachable_register Fixture.modules [("connectors", ["X"; "Y"])]
             _ reachable_initial). }
  split; [exact Hr |].
  destruct (last_registration_wins _ Hr) as (_ & _ & _ & H).
  destruct (H Fixture.modules [("connectors", ["X2"])]) as (_ & H2 & H3).
  split_and!; [rewrite H2 | rewrite H3 ..]; reflexivity.
Defined.

(** ** Permission queries *)

Lemma is_true_sql_in v s : is_true (sql_in v s) = true ↔ member v s.
Proof.
  destruct v as [x|]; simpl; [| done].
  case_bool_decide; intuition congruence.
Qed.

Lemma is_true_or_ a b :
  is_true (or_ a b) = true ↔ is_true a = true ∨ is_true b = true.
Proof. destruct a as [[]|], b as [[]|]; simpl; intuition congruence. Qed.

Lemma query_datasources_by_permissions_registered
    sources session database permissions schema_perms c :
  PyDict.getitem_opt (Database.type database) sources = Some c →
  ConnectorRegistry.query_datasources_by_permissions
    sources session database permissions schema_perms =
  ([class_name c],
   match session (class_name c) with
   | inl e => inl e
   | inr rows =>
       inr (filter (permitted database permissions schema_perms) rows)
   end).
Proof.
  intros Hc.
  unfold ConnectorRegistry.query_datasources_by_permissions, PyDict.getitem.
  rewrite Hc, bind_ret. unfold Query.all, Query.execute. simpl. f_equal.
  destruct (session (class_name c)) as [e|rows]; [done |].
  f_equal. apply List_filter_decide. intros r.
  unfold Query.selects, permitted. simpl.
  rewrite andb_true_r, andb_true_iff, is_true_or_, !is_true_sql_in.
  rewrite <- Z.eqb_eq.
  by destruct (BaseDatasource.database_id r =? Database.id database)%Z.
Qed.



(** ** The scan of [get_datasource_by_id] *)

(** One step of the scan, by what the session holds for the class. *)
Lemma scan_by_id_cons c cs session i :
  ConnectorRegistry.scan_by_id (c :: cs) session i =
  let continue :=
    (class_name c :: trace (ConnectorRegistry.scan_by_id cs session i),
     outcome (ConnectorRegistry.scan_by_id cs session i)) in
  match found session i c with
  | inl e => if is_NoResultFound e then continue else ([class_name c], inl e)
  | inr [] => continue
  | inr (r :: _) => ([class_name c], inr r)
  end.
Proof.
  cbn [ConnectorRegistry.scan_by_id]. rewrite one_filter_by_id.
  destruct (ConnectorRegistry.scan_by_id cs session i) as [t o].
  destruct (found session i c) as [e|[|r l]]; reflexivity.
Qed.

(** Classes without a row of the id are passed over, one query each. *)
Lemma scan_by_id_skip pre cs session i :
  Forall (λ c, found session i c = inr []) pre →
  ConnectorRegistry.scan_by_id (pre ++ cs) session i =
  ((class_name <$> pre) ++ trace (ConnectorRegistry.scan_by_id cs session i),
   outcome (ConnectorRegistry.scan_by_id cs session i)).
Proof.
  induction 1 as [|c pre Hc _ IH].
  - simpl. by destruct (ConnectorRegistry.scan_by_id cs session i).
  - cbn [app]. rewrite scan_by_id_cons, Hc. cbn zeta.
    by rewrite IH.
Qed.

Lemma values_app_cons (d1 d2 : Sources) t c :
  PyDict.values (d1 ++ (t, c) :: d2) =
  PyDict.values d1 ++ c :: PyDict.values d2.
Proof. unfold PyDict.values. by rewrite fmap_app. Qed.

Lemma get_datasource_by_id_split d1 t c d2 session i :
  Forall (λ c', found session i c' = inr []) (PyDict.values d1) →
  ConnectorRegistry.get_datasource_by_id (d1 ++ (t, c) :: d2) session i =
  ((class_name <$> PyDict.values d1) ++
     trace (ConnectorRegistry.scan_by_id (c :: PyDict.values d2) session i),
   outcome (ConnectorRegistry.scan_by_id (c :: PyDict.values d2) session i)).
Proof.
  intros Hpre. unfold ConnectorRegistry.get_datasource_by_id.
  rewrite values_app_cons. by apply scan_by_id_skip.
Qed.

Lemma scan_by_id_NoResultFound cs session i :
  outcome (ConnectorRegistry.scan_by_id cs session i) = inl NoResultFound ↔
  Forall (λ c, found session i c = inr [] ∨
               found session i c = inl NoResultFound) cs.
Proof.
  induction cs as [|c cs IH].
  - split; [constructor | reflexivity].
  - rewrite scan_by_id_cons, Forall_cons, <- IH. cbn zeta.
    destruct (found session i c) as [e|[|r l]]; simpl;
      [destruct e; simpl | ..]; intuition congruence.
Qed.

(** C5.  [get_datasource_by_id] goes through the registered classes in
    the order of the registry and returns the row of the first class whose
    lookup yields exactly one match for the id; with a session that answers
    for every registered class it raises [NoResultFound] exactly when no
    registered class has a row of the id.  A lookup yields exactly one
    match as soon as the class has a row of the id: the match is the first
    such row. *)
Theorem get_datasource_by_id_first_match sources session i :
  (∀ d1 t c d2 r,
     sources = d1 ++ (t, c) :: d2 →
     Forall (λ c', ∃ l, matches session i c' = inr l ∧ ∀ r', l ≠ [r'])
            (PyDict.values d1) →
     matches session i c = inr [r] →
     outcome (ConnectorRegistry.get_datasource_by_id sources session i)
       = inr r) ∧
  ((∀ c, c ∈ PyDict.values sources →
         ∃ rows, session (class_name c) = inr rows) →
   outcome (ConnectorRegistry.get_datasource_by_id sources session i)
     = inl NoResultFound ↔
   ∀ c rows, c ∈ PyDict.values sources →
             session (class_name c) = inr rows → with_id i rows = []) ∧
  (∀ c r, matches session i c = inr [r] ↔
          ∃ rest, found session i c = inr (r :: rest)).
Proof.
  split_and!.
  - intros d1 t c d2 r -> Hpre Hc.
    assert (Hpre' : Forall (λ c', found session i c' = inr [])
                      (PyDict.values d1)).
    { eapply Forall_impl; [exact Hpre |]. simpl.
      intros c' (l & Hl & Hne). rewrite matches_found in Hl.
      destruct (found session i c') as [e|[|r' l']]; [done | done |].
      injection Hl as <-. by destruct (Hne r'). }
    rewrite get_datasource_by_id_split by done.
    unfold outcome at 1. cbn [snd]. rewrite scan_by_id_cons.
    rewrite matches_found in Hc.
    destruct (found session i c) as [e|[|r' l']]; [done | done |].
    by injection Hc as ->.
  - intros Hs. unfold ConnectorRegistry.get_datasource_by_id.
    rewrite scan_by_id_NoResultFound, Forall_forall. split.
    + intros H c rows Hin Hrows. specialize (H c Hin).
      unfold found in H. rewrite Hrows in H.
      destruct H as [H|H]; congruence.
    + intros H c Hin. destruct (Hs c Hin) as [rows Hrows].
      left. unfold found. rewrite Hrows. f_equal. eauto.
  - intros c r. rewrite matches_found.
    destruct (found session i c) as [e|[|r' l']]; split;
      try (intros [rest H]); try intros H; try discriminate.
    + injection H as ->. eauto.
    + by injection H as -> _.
Qed.

Lemma get_datasource_by_id_first_match_witness :
  matches Fixture.session 4 Fixture.X = inr [] ∧
  matches Fixture.session 4 Fixture.Y = inr [Fixture.y4] ∧
  outcome (ConnectorRegistry.get_datasource_by_id
             Fixture.sources Fixture.session 4) = inr Fixture.y4 ∧
  (outcome (ConnectorRegistry.get_datasource_by_id
              Fixture.sources Fixture.session 99) = inl NoResultFound ↔
   ∀ c rows, c ∈ PyDict.values Fixture.sources →
             Fixture.session (class_name c) = inr rows →
             with_id 99 rows = []) ∧
  found Fixture.ambiguous 1 Fixture.X = inr [Fixture.x1; Fixture.x1'] ∧
  matches Fixture.ambiguous 1 Fixture.X = inr [Fixture.x1] ∧
  outcome (ConnectorRegistry.get_datasource_by_id
             Fixture.sources Fixture.ambiguous 1) = inr Fixture.x1.
Proof.
  assert (HX : matches Fixture.session 4 Fixture.X = inr []) by reflexivity.
  assert (HY : matches Fixture.session 4 Fixture.Y = inr [Fixture.y4])
    by reflexivity.
  assert (HA : matches Fixture.ambiguous 1 Fixture.X = inr [Fixture.x1])
    by reflexivity.
  split_and!; [exact HX | exact HY | | | reflexivity | exact HA |].
  - apply (proj1 (get_datasource_by_id_first_match
                    Fixture.sources Fixture.session 4)
             [("x", Fixture.X)] "y" Fixture.Y [] Fixture.y4);
      [reflexivity | | exact HY].
    constructor; [| constructor].
    exists []. split; [exact HX | discriminate].
  - apply (proj1 (proj2 (get_datasource_by_id_first_match
                           Fixture.sources Fixture.session 99))).
    intros c Hc.
    apply elem_of_cons in Hc as [->|Hc]; [by eexists |].
    apply elem_of_cons in Hc as [->|Hc]; [by eexists |].
    by apply elem_of_nil in Hc.
  - apply (proj1 (get_datasource_by_id_first_match
                    Fixture.sources Fixture.ambiguous 1)
             [] "x" Fixture.X [("y", Fixture.Y)] Fixture.x1);
      [reflexivity | constructor | exact HA].
Defined.

(** C6.  In the scan of [get_datasource_by_id], a class without a row of
    the id is passed over and the scan goes on with the classes after it;
    a failure of the session other than [NoResultFound] is the outcome of
    the call, and no class after the failing one is queried. *)
Theorem get_datasource_by_id_swallows_not_found_only d1 t c d2 session i :
  Forall (λ c', found session i c' = inr []) (PyDict.values d1) →
  (found session i c = inr [] →
     outcome (ConnectorRegistry.get_datasource_by_id
                (d1 ++ (t, c) :: d2) session i)
       = outcome (ConnectorRegistry.get_datasource_by_id d2 session i) ∧
     trace (ConnectorRegistry.get_datasource_by_id
              (d1 ++ (t, c) :: d2) session i)
       = (class_name <$> PyDict.values d1 ++ [c]) ++
         trace (ConnectorRegistry.get_datasource_by_id d2 session i)) ∧
  (∀ e, session (class_name c) = inl e → e ≠ NoResultFound →
     outcome (ConnectorRegistry.get_datasource_by_id
                (d1 ++ (t, c) :: d2) session i) = inl e ∧
     trace (ConnectorRegistry.get_datasource_by_id
              (d1 ++ (t, c) :: d2) session i)
       = class_name <$> PyDict.values d1 ++ [c]).
Proof.
  intros Hpre. rewrite get_datasource_by_id_split by done.
  rewrite scan_by_id_cons. cbn zeta. unfold outcome at 1 3, trace at 1 3.
  rewrite fmap_app. split.
  - intros ->. cbn [fst snd]. split; [done |].
    by rewrite <- app_assoc.
  - intros e He Hne. unfold found. rewrite He.
    assert (is_NoResultFound e = false) as -> by by destruct e.
    done.
Qed.

Lemma get_datasource_by_id_swallows_not_found_only_witness :
  (outcome (ConnectorRegistry.get_datasource_by_id
              Fixture.sources Fixture.session 4)
     = outcome (ConnectorRegistry.get_datasource_by_id
                  [("y", Fixture.Y)] Fixture.session 4) ∧
   trace (ConnectorRegistry.get_datasource_by_id
            Fixture.sources Fixture.session 4)
     = ["X"] ++ trace (ConnectorRegistry.get_datasource_by_id
                         [("y", Fixture.Y)] Fixture.session 4)) ∧
  found Fixture.flaky 9 Fixture.W = inr [Fixture.w9] ∧
  outcome (ConnectorRegistry.get_datasource_by_id
             Fixture.three Fixture.flaky 9) = inl (OtherError "timeout") ∧
  trace (ConnectorRegistry.get_datasource_by_id
           Fixture.three Fixture.flaky 9) = ["X"; "Y"].
Proof.
  split; [| split; [reflexivity |]].
  - exact (proj1 (get_datasource_by_id_swallows_not_found_only
                    [] "x" Fixture.X [("y", Fixture.Y)] Fixture.session 4
                    (Forall_nil_2 _))
                 eq_refl).
  - assert (Hpre : Forall (λ c', found Fixture.flaky 9 c' = inr [])
                     (PyDict.values [("x", Fixture.X)])).
    { constructor; [reflexivity | constructor]. }
    assert (Hne : OtherError "timeout" ≠ NoResultFound) by discriminate.
    exact (proj2 (get_datasource_by_id_swallows_not_found_only
                    [("x", Fixture.X)] "y" Fixture.Y [("w", Fixture.W)]
                    Fixture.flaky 9 Hpre)
                 (OtherError "timeout") eq_refl Hne).
Defined.




(** ** Listing every datasource *)

Lemma extend_all_outcome session cs (rows_of : SourceClass → list Row) acc :
  Forall (λ c, default_scoped session c = inr (rows_of c)) cs →
  outcome (ConnectorRegistry.extend_all cs session acc)
    = inr (acc ++ mjoin (rows_of <$> cs)).
Proof.
  intros H. revert acc. induction H as [|c cs Hc _ IH]; intros acc.
  - simpl. by rewrite app_nil_r.
  - cbn [ConnectorRegistry.extend_all]. cbn zeta.
    unfold default_scoped, outcome in Hc.
    destruct (Query.all _) as [t o]. simpl in Hc. subst o.
    unfold bind. specialize (IH (acc ++ rows_of c)).
    destruct (ConnectorRegistry.extend_all cs session _) as [t' o'].
    unfold outcome in *. simpl in *. by rewrite IH, app_assoc.
Qed.

(** C7.  When the default-scoped query of every registered class returns,
    [get_all_datasources] returns the rows of these queries, class after
    class in the order of the registry.  So every row returned is a row of
    a registered class, and a registry without one of its entries gives the
    rows of the remaining classes. *)
Theorem get_all_datasources_concat sources session
    (rows_of : SourceClass → list Row) :
  (∀ c, c ∈ PyDict.values sources →
        default_scoped session c = inr (rows_of c)) →
  outcome (ConnectorRegistry.get_all_datasources sources session)
    = inr (mjoin (rows_of <$> PyDict.values sources)) ∧
  (∀ r, r ∈ mjoin (rows_of <$> PyDict.values sources) ↔
        ∃ t c, (t, c) ∈ sources ∧ r ∈ rows_of c) ∧
  (∀ d1 t c d2, sources = d1 ++ (t, c) :: d2 →
     outcome (ConnectorRegistry.get_all_datasources (d1 ++ d2) session)
       = inr (mjoin (rows_of <$> PyDict.values d1) ++
              mjoin (rows_of <$> PyDict.values d2))).
Proof.
  intros H. split_and!.
  - unfold ConnectorRegistry.get_all_datasources.
    rewrite (extend_all_outcome _ _ rows_of); [done |].
    by apply Forall_forall.
  - intros r. rewrite list_elem_of_join. split.
    + intros (l & Hr & Hl). apply list_elem_of_fmap in Hl as (c & -> & Hc).
      apply list_elem_of_fmap in Hc as ([t c'] & -> & Hin). eauto.
    + intros (t & c & Hin & Hr). exists (rows_of c). split; [done |].
      apply list_elem_of_fmap. exists c. split; [done |].
      apply list_elem_of_fmap. by exists (t, c).
  - intros d1 t c d2 ->.
    unfold ConnectorRegistry.get_all_datasources.
    rewrite (extend_all_outcome _ _ rows_of).
    + unfold PyDict.values. by rewrite !fmap_app, join_app.
    + apply Forall_forall. intros c' Hc'. apply H.
      rewrite values_app_cons. unfold PyDict.values in *.
      rewrite fmap_app in Hc'.
      apply elem_of_app in Hc' as [?|?]; apply elem_of_app;
        [by left | right; by apply list_elem_of_further].
Qed.

Lemma get_all_datasources_concat_witness :
  outcome (ConnectorRegistry.get_all_datasources
             Fixture.sources Fixture.session)
    = inr [Fixture.x1; Fixture.x2; Fixture.y1; Fixture.y4] ∧
  outcome (ConnectorRegistry.get_all_datasources
             [("y", Fixture.Y)] Fixture.session)
    = inr [Fixture.y1; Fixture.y4].
Proof.
  pose (rows_of := λ c : SourceClass,
          if decide (class_name c = "X") then [Fixture.x1; Fixture.x2]
          else [Fixture.y1; Fixture.y4]).
  assert (H : ∀ c, c ∈ PyDict.values Fixture.sources →
                   default_scoped Fixture.session c = inr (rows_of c)).
  { intros c Hc.
    apply elem_of_cons in Hc as [->|Hc]; [reflexivity |].
    apply elem_of_cons in Hc as [->|Hc]; [reflexivity |].
    by apply elem_of_nil in Hc. }
  destruct (get_all_datasources_concat
              Fixture.sources Fixture.session rows_of H) as (H1 & _ & H3).
  split; [exact H1 |].
  exact (H3 [] "x" Fixture.X [("y", Fixture.Y)] eq_refl).
Defined.

(** ** Eager loading and lookup by name *)

(** The eager lookup, by what the session holds: the relations are
    fetched, [columns] first, once the class has given a row. *)
Lemma get_eager_datasource_registered sources session t c i :
  PyDict.getitem_opt t sources = Some c →
  ConnectorRegistry.get_eager_datasource sources session t i =
  match found session i c with
  | inl e => ([class_name c], inl e)
  | inr [] => ([class_name c], inl NoResultFound)
  | inr (r :: _) =>
      match session (columns c) with
      | inl e => ([class_name c; columns c], inl e)
      | inr _ =>
          match session (metrics c) with
          | inl e => ([class_name c; columns c; metrics c], inl e)
          | inr _ => ([class_name c; columns c; metrics c], inr r)
          end
      end
  end.
Proof.
  intros Hc. unfold ConnectorRegistry.get_eager_datasource, PyDict.getitem.
  rewrite Hc, bind_ret. unfold Query.one, Query.load.
  rewrite execute_filter_by_id. unfold found.
  destruct (session (class_name c)) as [e|rows]; [done |].
  pose proof (identities_one_id i _ (with_id_Forall i rows)) as Hid.
  destruct (with_id i rows) as [|r l]; [done |].
  unfold bind at 2. cbn [Query.session Query.options Query.with_options
    filter_by_id Query.filter session_query app Query.load_relations].
  rewrite Hid. unfold bind, ret.
  destruct (session (columns c)) as [e|cols]; [done |].
  destruct (session (metrics c)) as [e|mets]; done.
Qed.

(** C8, as the code has it.  [get_eager_datasource] fails in the two cases
    in which [get_datasource] fails, with other exceptions: for a type tag
    that is not registered it raises [KeyError] where [get_datasource]
    raises [DatasetNotFoundError], and when no row of the class carries the
    id it raises [NoResultFound] where [get_datasource] raises
    [DatasetNotFoundError]. *)
Theorem get_eager_datasource_failures sources session t i :
  (t ∉ PyDict.keys sources →
     outcome (ConnectorRegistry.get_eager_datasource sources session t i)
       = inl (KeyError t) ∧
     outcome (ConnectorRegistry.get_datasource sources t i session)
       = inl DatasetNotFoundError) ∧
  (∀ c rows,
     PyDict.getitem_opt t sources = Some c →
     session (class_name c) = inr rows →
     with_id i rows = [] →
     outcome (ConnectorRegistry.get_eager_datasource sources session t i)
       = inl NoResultFound ∧
     outcome (ConnectorRegistry.get_datasource sources t i session)
       = inl DatasetNotFoundError).
Proof.
  split.
  - intros Ht. split.
    + apply getitem_opt_None in Ht.
      unfold ConnectorRegistry.get_eager_datasource, PyDict.getitem.
      by rewrite Ht.
    + by rewrite get_datasource_not_registered.
  - intros c rows Hc Hrows Hnone.
    rewrite (get_eager_datasource_registered _ _ _ _ _ Hc).
    rewrite (get_datasource_registered _ _ _ _ _ Hc).
    unfold found, outcome. rewrite Hrows, Hnone. done.
Qed.

Lemma get_eager_datasource_failures_witness :
  (outcome (ConnectorRegistry.get_eager_datasource
              Fixture.sources Fixture.session "z" 1) = inl (KeyError "z") ∧
   outcome (ConnectorRegistry.get_datasource
              Fixture.sources "z" 1 Fixture.session)
     = inl DatasetNotFoundError) ∧
  (outcome (ConnectorRegistry.get_eager_datasource
              Fixture.sources Fixture.session "x" 99) = inl NoResultFound ∧
   outcome (ConnectorRegistry.get_datasource
              Fixture.sources "x" 99 Fixture.session)
     = inl DatasetNotFoundError).
Proof.
  split.
  - apply (proj1 (get_eager_datasource_failures
                    Fixture.sources Fixture.session "z" 1)).
    apply getitem_opt_None. reflexivity.
  - exact (proj2 (get_eager_datasource_failures
                    Fixture.sources Fixture.session "x" 99)
             Fixture.X [Fixture.x1; Fixture.x2; Fixture.x3]
             eq_refl eq_refl eq_refl).
Defined.

(** C8 as stated fails: on the unregistered tag "z" and on the id 99 that
    no row of [X] carries, the two functions raise different exceptions. *)
Lemma get_eager_datasource_fails_differently :
  ("z" ∉ PyDict.keys Fixture.sources) ∧
  outcome (ConnectorRegistry.get_eager_datasource
             Fixture.sources Fixture.session "z" 1)
    ≠ outcome (ConnectorRegistry.get_datasource
                 Fixture.sources "z" 1 Fixture.session) ∧
  PyDict.getitem_opt "x" Fixture.sources = Some Fixture.X ∧
  found Fixture.session 99 Fixture.X = inr [] ∧
  outcome (ConnectorRegistry.get_eager_datasource
             Fixture.sources Fixture.session "x" 99)
    ≠ outcome (ConnectorRegistry.get_datasource
                 Fixture.sources "x" 99 Fixture.session).
Proof.
  split_and!; try reflexivity; try discriminate.
  apply getitem_opt_None. reflexivity.
Qed.

(** C9.  For a type tag that is not registered [get_datasource_by_name]
    raises [KeyError] and does not reach the session; for a registered one
    it is the [get_datasource_by_name] of the class on the same arguments,
    so that a name the class does not find comes back as [None]. *)
Theorem get_datasource_by_name_delegates
    sources session t n schema database_name :
  (t ∉ PyDict.keys sources →
     ConnectorRegistry.get_datasource_by_name
       sources session t n schema database_name = ([], inl (KeyError t))) ∧
  (∀ c, PyDict.getitem_opt t sources = Some c →
     ConnectorRegistry.get_datasource_by_name
       sources session t n schema database_name
       = get_datasource_by_name c session n schema database_name ∧
     (outcome (get_datasource_by_name c session n schema database_name)
        = inr None →
      outcome (ConnectorRegistry.get_datasource_by_name
                 sources session t n schema database_name) = inr None)).
Proof.
  unfold ConnectorRegistry.get_datasource_by_name, PyDict.getitem. split.
  - intros Ht%getitem_opt_None. by rewrite Ht.
  - intros c Hc. rewrite Hc, bind_ret. done.
Qed.

Lemma get_datasource_by_name_delegates_witness :
  ConnectorRegistry.get_datasource_by_name
    Fixture.sources Fixture.session "z" "a" "public" "main"
    = ([], inl (KeyError "z")) ∧
  ConnectorRegistry.get_datasource_by_name
    Fixture.sources Fixture.session "x" "b" "public" "main"
    = (["X"], inr (Some Fixture.x2)) ∧
  outcome (ConnectorRegistry.get_datasource_by_name
             Fixture.sources Fixture.session "x" "nobody" "public" "main")
    = inr None.
Proof.
  split_and!.
  - apply (proj1 (get_datasource_by_name_delegates
                    Fixture.sources Fixture.session "z" "a" "public" "main")).
    apply getitem_opt_None. reflexivity.
  - rewrite (proj1 (proj2 (get_datasource_by_name_delegates
               Fixture.sources Fixture.session "x" "b" "public" "main")
               Fixture.X eq_refl)).
    reflexivity.
  - apply (proj2 (proj2 (get_datasource_by_name_delegates
               Fixture.sources Fixture.session "x" "nobody" "public" "main")
               Fixture.X eq_refl)).
    reflexivity.
Defined.

(** ** A run on the concrete registry

    [X] holds a row of id 1 and is registered before [Y], which holds one
    too. *)

Example scenario_registry :
  Fixture.sources = [("x", Fixture.X); ("y", Fixture.Y)].
Proof. reflexivity. Qed.

Example scenario_by_id :
  ConnectorRegistry.get_datasource_by_id Fixture.sources Fixture.session 1
    = (["X"], inr Fixture.x1).
Proof. reflexivity. Qed.

Example scenario_by_type :
  ConnectorRegistry.get_datasource Fixture.sources "y" 1 Fixture.session
    = (["Y"], inr Fixture.y1) ∧
  ConnectorRegistry.get_datasource Fixture.sources "z" 1 Fixture.session
    = ([], inl DatasetNotFoundError) ∧
  ConnectorRegistry.get_datasource Fixture.sources "x" 99 Fixture.session
    = (["X"], inl DatasetNotFoundError).
Proof. split_and!; reflexivity. Qed.

Example scenario_replaced_in_place :
  (ConnectorRegistry.register_sources
     Fixture.modules [("connectors", ["X2"]); ("missing", ["Y"])]
     Fixture.sources)
    = ([("x", Fixture.X2); ("y", Fixture.Y)], Some (ImportError "missing")).
Proof. reflexivity. Qed.

(** * Further properties *)

(** ** Dispatch on the type of a database *)

(** X1.  [query_datasources_by_name] raises [KeyError] for a database whose
    type is not registered, before anything reaches the session; for a
    registered type it is the [query_datasources_by_name] of the class on
    the same arguments, trace and outcome. *)
Theorem query_datasources_by_name_delegates
    sources session database n schema :
  (Database.type database ∉ PyDict.keys sources →
     ConnectorRegistry.query_datasources_by_name
       sources session database n schema
       = ([], inl (KeyError (Database.type database)))) ∧
  (∀ c, PyDict.getitem_opt (Database.type database) sources = Some c →
     ConnectorRegistry.query_datasources_by_name
       sources session database n schema
       = query_datasources_by_name c session database n schema).
Proof.
  unfold ConnectorRegistry.query_datasources_by_name, PyDict.getitem. split.
  - intros Ht%getitem_opt_None. by rewrite Ht.
  - intros c Hc. by rewrite Hc, bind_ret.
Qed.

Lemma query_datasources_by_name_delegates_witness :
  ConnectorRegistry.query_datasources_by_name
    Fixture.sources Fixture.session (Database.mk 7 "z") "a" None
    = ([], inl (KeyError "z")) ∧
  ConnectorRegistry.query_datasources_by_name
    Fixture.sources Fixture.session (Database.mk 7 "x") "a" None
    = (["X"], inr [Fixture.x1]).
Proof.
  split.
  - apply (proj1 (query_datasources_by_name_delegates
                    Fixture.sources Fixture.session
                    (Database.mk 7 "z") "a" None)).
    apply getitem_opt_None. reflexivity.
  - rewrite (proj2 (query_datasources_by_name_delegates
                      Fixture.sources Fixture.session
                      (Database.mk 7 "x") "a" None) Fixture.X eq_refl).
    reflexivity.
Defined.

(** X2.  The failures of [query_datasources_by_permissions]: a database
    whose type is not registered gives [KeyError] and no query; for a
    registered type the class is queried once, and a failure of the session
    is the outcome of the call. *)
Theorem query_datasources_by_permissions_failures
    sources session database permissions schema_perms :
  (Database.type database ∉ PyDict.keys sources →
     ConnectorRegistry.query_datasources_by_permissions
       sources session database permissions schema_perms
       = ([], inl (KeyError (Database.type database)))) ∧
  (∀ c e, PyDict.getitem_opt (Database.type database) sources = Some c →
     session (class_name c) = inl e →
     ConnectorRegistry.query_datasources_by_permissions
       sources session database permissions schema_perms
       = ([class_name c], inl e)).
Proof.
  split.
  - intros Ht%getitem_opt_None.
    unfold ConnectorRegistry.query_datasources_by_permissions,
      PyDict.getitem.
    by rewrite Ht.
  - intros c e Hc He.
    rewrite (query_datasources_by_permissions_registered _ _ _ _ _ _ Hc).
    by rewrite He.
Qed.

Lemma query_datasources_by_permissions_failures_witness :
  ConnectorRegistry.query_datasources_by_permissions
    Fixture.sources Fixture.session (Database.mk 7 "z") {["p1"]} ∅
    = ([], inl (KeyError "z")) ∧
  ConnectorRegistry.query_datasources_by_permissions
    Fixture.sources Fixture.broken (Database.mk 7 "y") {["p1"]} ∅
    = (["Y"], inl (OtherError "connection lost")).
Proof.
  split.
  - apply (proj1 (query_datasources_by_permissions_failures
                    Fixture.sources Fixture.session
                    (Database.mk 7 "z") {["p1"]} ∅)).
    apply getitem_opt_None. reflexivity.
  - exact (proj2 (query_datasources_by_permissions_failures
                    Fixture.sources Fixture.broken
                    (Database.mk 7 "y") {["p1"]} ∅)
             Fixture.Y (OtherError "connection lost") eq_refl eq_refl).
Defined.




(** X4.  With both permission sets empty [query_datasources_by_permissions]
    returns no row, whatever the table holds; the session is queried all
    the same.  A row whose [perm] and [schema_perm] are both NULL is never
    returned, whatever the sets. *)
Theorem query_datasources_by_permissions_nothing_granted
    sources session database c rows :
  PyDict.getitem_opt (Database.type database) sources = Some c →
  session (class_name c) = inr rows →
  ConnectorRegistry.query_datasources_by_permissions
    sources session database ∅ ∅ = ([class_name c], inr []) ∧
  ∀ permissions schema_perms l r,
    outcome (ConnectorRegistry.query_datasources_by_permissions
               sources session database permissions schema_perms) = inr l →
    BaseDatasource.perm r = None →
    BaseDatasource.schema_perm r = None →
    r ∉ l.
Proof.
  intros Hc Hrows. split.
  - rewrite (query_datasources_by_permissions_registered _ _ _ _ _ _ Hc).
    rewrite Hrows. do 2 f_equal. clear Hrows.
    induction rows as [|r rows IH]; [done |].
    rewrite filter_cons_False; [exact IH |].
    intros [_ [H|H]]; destruct (BaseDatasource.perm r),
      (BaseDatasource.schema_perm r); simpl in H;
      try done; by apply not_elem_of_empty in H.
  - intros permissions schema_perms l r.
    rewrite (query_datasources_by_permissions_registered _ _ _ _ _ _ Hc).
    unfold outcome. simpl. rewrite Hrows. intros [= <-] Hp Hsp.
    rewrite list_elem_of_filter. intros [[_ [H|H]] _].
    + by rewrite Hp in H.
    + by rewrite Hsp in H.
Qed.

Lemma query_datasources_by_permissions_nothing_granted_witness :
  ConnectorRegistry.query_datasources_by_permissions
    Fixture.sources Fixture.session (Database.mk 7 "x") ∅ ∅
    = (["X"], inr []).
Proof.
  exact (proj1 (query_datasources_by_permissions_nothing_granted
                  Fixture.sources Fixture.session (Database.mk 7 "x")
                  Fixture.X [Fixture.x1; Fixture.x2; Fixture.x3]
                  eq_refl eq_refl)).
Defined.

(** ** Lookups by type and id *)



(** X6.  [get_eager_datasource] returns a row exactly when
    [get_datasource] returns that row and the session answers the queries
    for the [columns] and the [metrics] of the class: the eager lookup
    finds what the plain one finds, and fails where a relation cannot be
    loaded. *)
Theorem get_eager_datasource_same_row sources session t i r :
  outcome (ConnectorRegistry.get_eager_datasource sources session t i)
    = inr r ↔
  outcome (ConnectorRegistry.get_datasource sources t i session) = inr r ∧
  ∃ c cols mets,
    PyDict.getitem_opt t sources = Some c ∧
    session (columns c) = inr cols ∧ session (metrics c) = inr mets.
Proof.
  destruct (PyDict.getitem_opt t sources) as [c|] eqn:Hc.
  - rewrite (get_datasource_registered _ _ _ _ _ Hc).
    rewrite (get_eager_datasource_registered _ _ _ _ _ Hc).
    unfold outcome. split.
    + destruct (found session i c) as [e|[|r' l]];
        [discriminate | discriminate |].
      destruct (session (columns c)) as [e|cols] eqn:Hcols;
        [discriminate |].
      destruct (session (metrics c)) as [e|mets] eqn:Hmets;
        [discriminate |].
      intros [= <-]. split; [done |]. by exists c, cols, mets.
    + intros [Hr (c' & cols & mets & [= <-] & Hcols & Hmets)].
      rewrite Hcols, Hmets. simpl in Hr.
      destruct (found session i c) as [e|[|r' l]]; try discriminate.
      done.
  - pose proof Hc as Hk. apply getitem_opt_None in Hk.
    rewrite (get_datasource_not_registered _ _ _ _ Hk).
    unfold ConnectorRegistry.get_eager_datasource, PyDict.getitem.
    rewrite Hc. split; [discriminate |]. by intros [? _].
Qed.

Lemma get_eager_datasource_same_row_witness :
  outcome (ConnectorRegistry.get_eager_datasource
             Fixture.sources Fixture.related "x" 1) = inr Fixture.x1 ∧
  outcome (ConnectorRegistry.get_datasource
             Fixture.sources "x" 1 Fixture.no_metrics) = inr Fixture.x1 ∧
  ConnectorRegistry.get_eager_datasource
    Fixture.sources Fixture.no_metrics "x" 1
    = (["X"; "XColumn"; "XMetric"], inl (OtherError "no such table")).
Proof.
  split; [| split; reflexivity].
  apply (proj2 (get_eager_datasource_same_row
                  Fixture.sources Fixture.related "x" 1 Fixture.x1)).
  split; [reflexivity |].
  exists Fixture.X, [], []. by split_and!.
Defined.





(** ** The scan over all classes *)

Lemma scan_by_id_inr cs session i r :
  outcome (ConnectorRegistry.scan_by_id cs session i) = inr r →
  ∃ c rest, c ∈ cs ∧ found session i c = inr (r :: rest).
Proof.
  induction cs as [|c cs IH]; [discriminate |].
  rewrite scan_by_id_cons. cbn zeta.
  destruct (found session i c) as [e|[|r' l]] eqn:Hf.
  - destruct (is_NoResultFound e); [| discriminate].
    intros (c' & rest & Hin & Hc')%IH. exists c', rest.
    split; [by right | done].
  - intros (c' & rest & Hin & Hc')%IH. exists c', rest.
    split; [by right | done].
  - intros [= <-]. exists c, l. split; [by left | done].
Qed.


Lemma scan_by_id_trace cs session i :
  trace (ConnectorRegistry.scan_by_id cs session i)
    `prefix_of` (class_name <$> cs).
Proof.
  induction cs as [|c cs IH]; [done |].
  rewrite scan_by_id_cons, fmap_cons. cbn zeta.
  assert (Hone : [class_name c] `prefix_of` class_name c :: (class_name <$> cs))
    by apply (prefix_app_r [class_name c] [class_name c] _), reflexivity.
  destruct (found session i c) as [e|[|r' l]]; simpl;
    [destruct (is_NoResultFound e); simpl | ..];
    try exact Hone; by apply prefix_cons.
Qed.

Lemma elem_of_values (d : Sources) c :
  c ∈ PyDict.values d ↔ ∃ t, (t, c) ∈ d.
Proof.
  unfold PyDict.values. rewrite list_elem_of_fmap. split.
  - intros ([t c'] & -> & Hin). eauto.
  - intros (t & Hin). by exists (t, c).
Qed.



(** X9.  [get_datasource_by_id] queries registered classes only, each at
    most once and in the order of the registry: the queries it sends are
    an initial segment of the registered classes, whatever the session
    answers. *)
Theorem get_datasource_by_id_queries_in_order sources session i :
  trace (ConnectorRegistry.get_datasource_by_id sources session i)
    `prefix_of` (class_name <$> PyDict.values sources).
Proof. apply scan_by_id_trace. Qed.

(** X10.  The lookup by id alone and the lookup by type and id agree on a
    registry without repeated tags: a row that [get_datasource_by_id]
    returns is returned by [get_datasource] for some registered tag, and
    when [get_datasource] returns a row for some tag,
    [get_datasource_by_id] does not report [NoResultFound]. *)
Theorem get_datasource_by_id_agrees sources session i :
  NoDup (PyDict.keys sources) →
  (∀ r, outcome (ConnectorRegistry.get_datasource_by_id sources session i)
          = inr r →
        ∃ t, t ∈ PyDict.keys sources ∧
             outcome (ConnectorRegistry.get_datasource sources t i session)
               = inr r) ∧
  (∀ t r, outcome (ConnectorRegistry.get_datasource sources t i session)
            = inr r →
          outcome (ConnectorRegistry.get_datasource_by_id sources session i)
            ≠ inl NoResultFound).
Proof.
  intros Hnd. split.
  - unfold ConnectorRegistry.get_datasource_by_id.
    intros r (c & rest & Hin & Hf)%scan_by_id_inr.
    apply elem_of_values in Hin as [t Hin]. exists t. split.
    + apply list_elem_of_fmap. by exists (t, c).
    + rewrite (get_datasource_registered _ _ c); [| by apply elem_of_getitem_opt].
      unfold outcome. simpl. by rewrite Hf.
  - intros t r Hr Hnone.
    unfold ConnectorRegistry.get_datasource_by_id in Hnone.
    rewrite scan_by_id_NoResultFound, Forall_forall in Hnone.
    destruct (PyDict.getitem_opt t sources) as [c|] eqn:Hc.
    + rewrite (get_datasource_registered _ _ _ _ _ Hc) in Hr.
      unfold outcome in Hr. simpl in Hr.
      assert (Hin : c ∈ PyDict.values sources).
      { apply elem_of_values. exists t. by apply getitem_opt_elem_of. }
      destruct (Hnone c Hin) as [H|H]; rewrite H in Hr; discriminate.
    + apply getitem_opt_None in Hc.
      rewrite (get_datasource_not_registered _ _ _ _ Hc) in Hr.
      discriminate.
Qed.

Lemma get_datasource_by_id_agrees_witness :
  ∃ t, t ∈ PyDict.keys Fixture.sources ∧
       outcome (ConnectorRegistry.get_datasource
                  Fixture.sources t 4 Fixture.session) = inr Fixture.y4.
Proof.
  assert (Hnd : NoDup (PyDict.keys Fixture.sources)).
  { apply (NoDup_cons_2 "x"); [| apply NoDup_singleton].
    intros H%list_elem_of_singleton. discriminate. }
  exact (proj1 (get_datasource_by_id_agrees
                  Fixture.sources Fixture.session 4 Hnd)
           Fixture.y4 eq_refl).
Defined.

(** ** Listing, when a class fails *)

Lemma extend_all_abort session pre c cs e acc :
  Forall (λ c', ∃ l, default_scoped session c' = inr l) pre →
  default_scoped session c = inl e →
  ConnectorRegistry.extend_all (pre ++ c :: cs) session acc =
  ((λ c', Query.entity (default_query c' (session_query session c')))
     <$> (pre ++ [c]),
   inl e).
Proof.
  intros Hpre Hc. revert acc.
  induction Hpre as [|c' pre [l Hl] _ IH]; intros acc.
  - cbn [app ConnectorRegistry.extend_all]. cbn zeta.
    unfold default_scoped, outcome, Query.all, Query.execute in *.
    simpl in *. by rewrite Hc.
  - cbn [app ConnectorRegistry.extend_all]. cbn zeta.
    rewrite fmap_cons.
    unfold default_scoped, outcome, Query.all, Query.execute in Hl.
    unfold Query.all, Query.execute, bind. simpl in *. rewrite Hl.
    by rewrite IH.
Qed.

(** X11.  [get_all_datasources] has no handler: when the default-scoped
    query of a registered class fails, after those of the classes before
    it have returned, the failure is the outcome of the call, the rows
    gathered so far are not returned, and no class after the failing one
    is queried. *)
Theorem get_all_datasources_aborts d1 t c d2 session e :
  Forall (λ c', ∃ l, default_scoped session c' = inr l) (PyDict.values d1) →
  default_scoped session c = inl e →
  outcome (ConnectorRegistry.get_all_datasources
             (d1 ++ (t, c) :: d2) session) = inl e ∧
  trace (ConnectorRegistry.get_all_datasources
           (d1 ++ (t, c) :: d2) session)
    = (λ c', Query.entity (default_query c' (session_query session c')))
        <$> (PyDict.values d1 ++ [c]).
Proof.
  intros Hpre Hc. unfold ConnectorRegistry.get_all_datasources.
  rewrite values_app_cons.
  by rewrite (extend_all_abort _ _ _ _ e [] Hpre Hc).
Qed.

Lemma get_all_datasources_aborts_witness :
  default_scoped Fixture.flaky Fixture.X = inr [Fixture.x1; Fixture.x2] ∧
  outcome (ConnectorRegistry.get_all_datasources
             Fixture.three Fixture.flaky) = inl (OtherError "timeout") ∧
  trace (ConnectorRegistry.get_all_datasources
           Fixture.three Fixture.flaky) = ["X"; "Y"].
Proof.
  split; [reflexivity |].
  assert (Hpre : Forall (λ c', ∃ l, default_scoped Fixture.flaky c' = inr l)
                   (PyDict.values [("x", Fixture.X)])).
  { constructor; [by eexists | constructor]. }
  exact (get_all_datasources_aborts
           [("x", Fixture.X)] "y" Fixture.Y [("w", Fixture.W)]
           Fixture.flaky (OtherError "timeout") Hpre eq_refl).
Defined.

(** ** Registration: order, composition, failures *)

Lemma register_all_snoc cs c sources :
  register_all (cs ++ [c]) sources =
  PyDict.setitem (type c) c (register_all cs sources).
Proof. by rewrite register_all_app. Qed.

Lemma keys_setitem_prefix {V} (d : PyDict.t V) k v :
  PyDict.keys d `prefix_of` PyDict.keys (PyDict.setitem k v d).
Proof.
  rewrite keys_setitem. case_decide; [done |]. by apply prefix_app_r.
Qed.

Lemma keys_register_all_prefix cs sources :
  PyDict.keys sources `prefix_of` PyDict.keys (register_all cs sources).
Proof.
  induction cs as [|c cs IH] using rev_ind; [done |].
  rewrite register_all_snoc. etrans; [exact IH |].
  apply keys_setitem_prefix.
Qed.

(** X12.  [register_sources] never removes a tag and never moves one: the
    tags registered before the call are an initial segment of the tags
    registered after it, so the classes already registered keep their
    place in the order in which the registry is iterated, replaced or not,
    whether the call returns or raises. *)
Theorem register_sources_keeps_order modules datasource_config sources :
  PyDict.keys sources `prefix_of`
  PyDict.keys
    (ConnectorRegistry.register_sources modules datasource_config sources).1.
Proof.
  rewrite register_sources_resolved. apply keys_register_all_prefix.
Qed.

Lemma register_classes_app module_obj ns1 ns2 sources :
  ConnectorRegistry.register_classes module_obj (ns1 ++ ns2) sources =
  match ConnectorRegistry.register_classes module_obj ns1 sources with
  | (sources', None) =>
      ConnectorRegistry.register_classes module_obj ns2 sources'
  | raised => raised
  end.
Proof.
  revert sources. induction ns1 as [|n ns1 IH]; intros sources; [done |].
  cbn [app ConnectorRegistry.register_classes].
  destruct (getattr module_obj n) as [e|c]; [done |]. apply IH.
Qed.

Lemma register_sources_app modules cfg1 cfg2 sources :
  ConnectorRegistry.register_sources modules (cfg1 ++ cfg2) sources =
  match ConnectorRegistry.register_sources modules cfg1 sources with
  | (sources', None) =>
      ConnectorRegistry.register_sources modules cfg2 sources'
  | raised => raised
  end.
Proof.
  revert sources. induction cfg1 as [|[m ns] cfg1 IH]; intros sources;
    [done |].
  cbn [app ConnectorRegistry.register_sources].
  destruct (import modules m) as [e|module_obj]; [done |].
  destruct (ConnectorRegistry.register_classes module_obj ns sources)
    as [sources' [e|]]; [done |].
  apply IH.
Qed.

(** X13.  One call of [register_sources] on a configuration in two parts
    is the call on the second part after the call on the first, when the
    first returns; when the first raises, the second part is not looked
    at. *)
Theorem register_sources_in_two_calls modules cfg1 cfg2 sources :
  ((ConnectorRegistry.register_sources modules cfg1 sources).2 = None →
   ConnectorRegistry.register_sources modules (cfg1 ++ cfg2) sources
     = ConnectorRegistry.register_sources modules cfg2
         (ConnectorRegistry.register_sources modules cfg1 sources).1) ∧
  (∀ e, (ConnectorRegistry.register_sources modules cfg1 sources).2
          = Some e →
   ConnectorRegistry.register_sources modules (cfg1 ++ cfg2) sources
     = ConnectorRegistry.register_sources modules cfg1 sources).
Proof.
  rewrite register_sources_app.
  destruct (ConnectorRegistry.register_sources modules cfg1 sources)
    as [sources' [e|]]; simpl; split; intros; congruence.
Qed.

Lemma register_sources_in_two_calls_witness :
  ConnectorRegistry.register_sources Fixture.modules
    ([("connectors", ["X"])] ++ [("connectors", ["Y"])])
    ConnectorRegistry.initial_sources
    = (Fixture.sources, None) ∧
  ConnectorRegistry.register_sources Fixture.modules
    ([("connectors", ["X"; "V"])] ++ [("connectors", ["Y"])])
    ConnectorRegistry.initial_sources
    = ([("x", Fixture.X)], Some (AttributeError "V")).
Proof.
  split.
  - rewrite (proj1 (register_sources_in_two_calls Fixture.modules
               [("connectors", ["X"])] [("connectors", ["Y"])]
               ConnectorRegistry.initial_sources) eq_refl).
    reflexivity.
  - rewrite (proj2 (register_sources_in_two_calls Fixture.modules
               [("connectors", ["X"; "V"])] [("connectors", ["Y"])]
               ConnectorRegistry.initial_sources)
               (AttributeError "V") eq_refl).
    reflexivity.
Defined.

(** X14.  Where [register_sources] stops.  When a module of the
    configuration cannot be imported, the call raises [ImportError] and
    the registry holds what the entries before it registered.  When a class
    name is not an attribute of its module, the call raises
    [AttributeError] and the registry holds what the entries before and
    the names before it in the same entry registered.  Nothing after the
    failing name is registered. *)
Theorem register_sources_stops_at_failure modules cfg1 m cfg2 sources :
  (∀ ns,
     (ConnectorRegistry.register_sources modules cfg1 sources).2 = None →
     modules m = None →
     ConnectorRegistry.register_sources
       modules (cfg1 ++ (m, ns) :: cfg2) sources
       = ((ConnectorRegistry.register_sources modules cfg1 sources).1,
          Some (ImportError m))) ∧
  (∀ module_obj ns1 a ns2,
     (ConnectorRegistry.register_sources
        modules (cfg1 ++ [(m, ns1)]) sources).2 = None →
     modules m = Some module_obj →
     module_obj a = None →
     ConnectorRegistry.register_sources
       modules (cfg1 ++ (m, ns1 ++ a :: ns2) :: cfg2) sources
       = ((ConnectorRegistry.register_sources
             modules (cfg1 ++ [(m, ns1)]) sources).1,
          Some (AttributeError a))).
Proof.
  split.
  - intros ns Hok Hm. rewrite register_sources_app.
    destruct (ConnectorRegistry.register_sources modules cfg1 sources)
      as [sources' [e|]]; [discriminate |].
    cbn [ConnectorRegistry.register_sources]. unfold import.
    by rewrite Hm.
  - intros module_obj ns1 a ns2 Hok Hm Ha.
    rewrite !register_sources_app in *.
    destruct (ConnectorRegistry.register_sources modules cfg1 sources)
      as [sources' [e|]]; [discriminate |].
    cbn [ConnectorRegistry.register_sources] in *. unfold import in *.
    rewrite Hm in *. rewrite register_classes_app.
    destruct (ConnectorRegistry.register_classes module_obj ns1 sources')
      as [sources'' [e|]]; [discriminate |].
    cbn [ConnectorRegistry.register_classes fst]. unfold getattr.
    by rewrite Ha.
Qed.

Lemma register_sources_stops_at_failure_witness :
  ConnectorRegistry.register_sources Fixture.modules
    ([("connectors", ["X"])] ++ ("missing", ["Y"]) :: [("connectors", ["W"])])
    ConnectorRegistry.initial_sources
    = ([("x", Fixture.X)], Some (ImportError "missing")) ∧
  ConnectorRegistry.register_sources Fixture.modules
    ([("connectors", ["X"])] ++
     ("connectors", ["Y"] ++ "V" :: ["W"]) :: [])
    ConnectorRegistry.initial_sources
    = (Fixture.sources, Some (AttributeError "V")).
Proof.
  split.
  - exact (proj1 (register_sources_stops_at_failure Fixture.modules
                    [("connectors", ["X"])] "missing" [("connectors", ["W"])]
                    ConnectorRegistry.initial_sources)
             ["Y"] eq_refl eq_refl).
  - destruct (Fixture.modules "connectors") as [module_obj|] eqn:Hm;
      [| discriminate].
    injection Hm as <-.
    exact (proj2 (register_sources_stops_at_failure Fixture.modules
                    [("connectors", ["X"])] "connectors" []
                    ConnectorRegistry.initial_sources)
             _ ["Y"] "V" ["W"] eq_refl eq_refl eq_refl).
Defined.

Lemma getitem_singleton {V} t (c : V) : PyDict.getitem_opt t [(t, c)] = Some c.
Proof. simpl. by rewrite decide_True. Qed.

(** X15.  Registration decides the dispatch.  After [register_sources],
    whether it returned or raised, [get_datasource] and
    [get_eager_datasource] for a tag serve the class that the call
    registered last under this tag, as a registry holding this class alone
    would: what was registered under the tag before plays no part. *)
Theorem registered_class_serves
    modules datasource_config sources t c i session :
  latest t (resolved modules datasource_config).1 = Some c →
  let after :=
    (ConnectorRegistry.register_sources
       modules datasource_config sources).1 in
  ConnectorRegistry.get_datasource after t i session
    = ConnectorRegistry.get_datasource [(t, c)] t i session ∧
  ConnectorRegistry.get_eager_datasource after session t i
    = ConnectorRegistry.get_eager_datasource [(t, c)] session t i.
Proof.
  intros Hc after.
  assert (Hafter : PyDict.getitem_opt t after = Some c).
  { unfold after. rewrite register_sources_resolved. simpl.
    by rewrite getitem_opt_register_all, Hc. }
  split.
  - rewrite (get_datasource_registered _ _ _ _ _ Hafter).
    by rewrite (get_datasource_registered _ _ _ _ _ (getitem_singleton t c)).
  - rewrite (get_eager_datasource_registered _ _ _ _ _ Hafter).
    by rewrite (get_eager_datasource_registered _ _ _ _ _
                  (getitem_singleton t c)).
Qed.

Lemma registered_class_serves_witness :
  ConnectorRegistry.get_datasource
    (ConnectorRegistry.register_sources
       Fixture.modules [("connectors", ["X2"])] Fixture.sources).1
    "x" 1 Fixture.session
    = (["X2"], inl (OtherError "no such table")).
Proof.
  rewrite (proj1 (registered_class_serves
             Fixture.modules [("connectors", ["X2"])] Fixture.sources
             "x" Fixture.X2 1 Fixture.session eq_refl)).
  reflexivity.
Defined.

Lemma dict_ext {V} (d1 d2 : PyDict.t V) :
  NoDup (PyDict.keys d1) →
  PyDict.keys d1 = PyDict.keys d2 →
  (∀ k, PyDict.getitem_opt k d1 = PyDict.getitem_opt k d2) →
  d1 = d2.
Proof.
  unfold PyDict.keys. revert d2.
  induction d1 as [|[k v] d1 IH]; intros [|[k' v'] d2]; simpl;
    try done.
  intros [Hk Hnd]%NoDup_cons [= <- Hkeys] Hget.
  pose proof (Hget k) as Hv. rewrite !decide_True in Hv by done.
  injection Hv as <-. f_equal. apply IH; [done | done |].
  intros k0. destruct (decide (k = k0)) as [<-|Hne].
  - assert (H1 : PyDict.getitem_opt k d1 = None)
      by by apply getitem_opt_None.
    assert (H2 : PyDict.getitem_opt k d2 = None).
    { apply getitem_opt_None. intros Hin. apply Hk.
      exact (eq_ind_r (λ l, k ∈ l) Hin Hkeys). }
    by rewrite H1, H2.
  - specialize (Hget k0). by rewrite !decide_False in Hget.
Qed.

Lemma NoDup_keys_register_all cs sources :
  NoDup (PyDict.keys sources) → NoDup (PyDict.keys (register_all cs sources)).
Proof.
  intros H. induction cs as [|c cs IH] using rev_ind; [done |].
  rewrite register_all_snoc. by apply NoDup_keys_setitem.
Qed.

Lemma keys_register_all_present cs sources :
  Forall (λ c, type c ∈ PyDict.keys sources) cs →
  PyDict.keys (register_all cs sources) = PyDict.keys sources.
Proof.
  induction cs as [|c cs IH] using rev_ind; [done |].
  intros [Hcs Hc]%Forall_app. rewrite Forall_singleton in Hc.
  rewrite register_all_snoc, keys_setitem, IH by done.
  by rewrite decide_True.
Qed.

Lemma tags_register_all cs sources :
  Forall (λ c, type c ∈ PyDict.keys (register_all cs sources)) cs.
Proof.
  induction cs as [|c cs IH] using rev_ind; [constructor |].
  rewrite register_all_snoc. apply Forall_app. split.
  - eapply Forall_impl; [exact IH |]. simpl. intros c' Hc'.
    eapply elem_of_prefix; [exact Hc' | apply keys_setitem_prefix].
  - apply Forall_singleton. rewrite keys_setitem.
    case_decide; [done |]. apply elem_of_app. right.
    apply list_elem_of_here.
Qed.

(** X16.  Registering the same configuration a second time changes
    nothing: on a registry without repeated tags, a second
    [register_sources] with the same modules and configuration leaves the
    registry as the first left it and ends as the first ended. *)
Theorem register_sources_idempotent modules datasource_config sources :
  NoDup (PyDict.keys sources) →
  ConnectorRegistry.register_sources modules datasource_config
    (ConnectorRegistry.register_sources
       modules datasource_config sources).1
  = ConnectorRegistry.register_sources modules datasource_config sources.
Proof.
  intros Hnd. rewrite !register_sources_resolved. cbn [fst]. f_equal.
  set (cs := (resolved modules datasource_config).1).
  apply dict_ext.
  - by do 2 apply NoDup_keys_register_all.
  - apply keys_register_all_present, tags_register_all.
  - intros k. rewrite !getitem_opt_register_all.
    by destruct (latest k cs).
Qed.

Lemma register_sources_idempotent_witness :
  ConnectorRegistry.register_sources
    Fixture.modules [("connectors", ["X2"; "Y"; "X"])] Fixture.sources
  = (Fixture.sources, None).
Proof.
  assert (Hnd : NoDup (PyDict.keys ConnectorRegistry.initial_sources))
    by apply NoDup_nil_2.
  pose proof (register_sources_idempotent Fixture.modules
                [("connectors", ["X2"; "Y"; "X"])]
                ConnectorRegistry.initial_sources Hnd) as H.
  exact H.
Defined.

Lemma extend_all_trace session cs acc :
  trace (ConnectorRegistry.extend_all cs session acc)
    `prefix_of`
    ((λ c, Query.entity (default_query c (session_query session c))) <$> cs)
  ∧
  (Forall (λ c, ∃ l, default_scoped session c = inr l) cs →
   trace (ConnectorRegistry.extend_all cs session acc)
     = (λ c, Query.entity (default_query c (session_query session c)))
         <$> cs).
Proof.
  revert acc. induction cs as [|c cs IH]; intros acc; [done |].
  cbn [ConnectorRegistry.extend_all]. cbn zeta. rewrite fmap_cons.
  unfold default_scoped, outcome, Query.all, Query.execute, bind.
  cbn [snd].
  destruct (Query.session _ _) as [e|rows] eqn:Hs.
  - split.
    + apply (prefix_app_r [_] [_]). reflexivity.
    + intros [[l Hl] _]%Forall_cons. simpl in Hl. rewrite Hs in Hl. discriminate.
  - destruct (IH (acc ++ List.filter
                (Query.selects (default_query c (session_query session c)))
                rows)) as [IH1 IH2].
    destruct (ConnectorRegistry.extend_all cs session _) as [t o].
    unfold trace in *. cbn [fst app] in *. split.
    + by apply prefix_cons.
    + intros [_ Hcs]%Forall_cons. by rewrite IH2.
Qed.

(** X17.  [get_all_datasources] sends one query for each registered class,
    in the order of the registry, on the entity that the class's
    [default_query] leaves in the query; it stops at the first query that
    fails, so its queries are always an initial segment of these, and all
    of them when every query returns. *)
Theorem get_all_datasources_queries_in_order sources session :
  trace (ConnectorRegistry.get_all_datasources sources session)
    `prefix_of`
    ((λ c, Query.entity (default_query c (session_query session c)))
       <$> PyDict.values sources)
  ∧
  ((∀ c, c ∈ PyDict.values sources →
         ∃ l, default_scoped session c = inr l) →
   trace (ConnectorRegistry.get_all_datasources sources session)
     = (λ c, Query.entity (default_query c (session_query session c)))
         <$> PyDict.values sources).
Proof.
  unfold ConnectorRegistry.get_all_datasources.
  destruct (extend_all_trace session (PyDict.values sources) []) as [H1 H2].
  split; [exact H1 |].
  intros H. apply H2. by apply Forall_forall.
Qed.

Lemma get_all_datasources_queries_in_order_witness :
  trace (ConnectorRegistry.get_all_datasources
           Fixture.sources Fixture.session) = ["X"; "Y"].
Proof.
  apply (proj2 (get_all_datasources_queries_in_order
                  Fixture.sources Fixture.session)).
  intros c Hc.
  apply elem_of_cons in Hc as [->|Hc]; [by eexists |].
  apply elem_of_cons in Hc as [->|Hc]; [by eexists |].
  by apply elem_of_nil in Hc.
Defined.
